(** * The creation controller of the TPU provisioner

    A shallow embedding of
    [tpu-provisioner/internal/controller/creation_controller.go] and the
    properties of its [Reconcile] function.

    [Reconcile] talks to three injected collaborators (the cluster client,
    the event recorder and the cloud provider) and to the logger.  It is
    embedded as a finite tree of calls: every call the Go code makes is one
    node, and the continuation receives what the collaborator answered.
    Running the tree against an implementation of the collaborators gives
    the returned pair, the final state of the collaborators and the calls
    made, in order. *)

From Stdlib Require Import ZArith String List Bool Lia.
From stdpp Require Import base option strings gmap list.

Local Open Scope string_scope.
Local Open Scope list_scope.
Local Open Scope nat_scope.

(** ** Go errors *)

(** The error values the controller meets.  [errorString] is what
    [errors.New] returns: a pointer, so two of them are the same error
    exactly when they are the same allocation, [addr].  [wrapError] is what
    [fmt.Errorf] returns for a format with one [%w]: [msg] is the formatted
    text, [err] the wrapped error.  [StatusError] is the API server's
    error, with its reason. *)
Inductive error : Type :=
  | errorString (addr : positive) (s : string)
  | wrapError (msg : string) (err : error)
  | StatusError (reason : string) (message : string).

Global Instance error_eq_dec : EqDecision error.
Proof. solve_decision. Defined.

(** [err.Error()] *)
Definition Error (err : error) : string :=
  match err with
  | errorString _ s => s
  | wrapError msg _ => msg
  | StatusError _ message => message
  end.

(** [err == target] on interface values.  The sentinels made by
    [errors.New] are compared by address; the other values carry no address
    here and are compared by content. *)
Definition same_error (err target : error) : bool :=
  match err, target with
  | errorString a _, errorString b _ => bool_decide (a = b)
  | _, _ => bool_decide (err = target)
  end.

(** [errors.Is(err, target)]: [target] is [err] or is found by unwrapping
    [err] repeatedly. *)
Fixpoint errors_Is (err target : error) : bool :=
  same_error err target ||
  match err with
  | wrapError _ inner => errors_Is inner target
  | _ => false
  end.

(** [fmt.Errorf(prefix + "%w", err)] *)
Definition fmt_Errorf_w (prefix : string) (err : error) : error :=
  wrapError (prefix +:+ Error err) err.

(** ** Contexts *)

(** [context.Canceled] and [context.DeadlineExceeded]. *)
Definition context_Canceled : error := errorString 1 "context canceled".
Definition context_DeadlineExceeded : error :=
  errorString 2 "context deadline exceeded".

(** A [context.Context] is a signal that its owner may fire while the
    reconciliation runs.  Time is counted in calls issued to the
    collaborators: [fires] is the instant from which the signal is on,
    together with the error [ctx.Err()] reports from then on. *)
Record Context : Type := mkContext { fires : option (nat * error) }.

Definition context_Background : Context := {| fires := None |}.
Definition context_WithCancel (at_ : nat) : Context :=
  {| fires := Some (at_, context_Canceled) |}.
Definition context_WithDeadline (at_ : nat) : Context :=
  {| fires := Some (at_, context_DeadlineExceeded) |}.

(** [ctx.Err()] read at instant [now]. *)
Definition ctx_Err (ctx : Context) (now : nat) : option error :=
  match fires ctx with
  | Some (t, e) => if t <=? now then Some e else None
  | None => None
  end.

(** ** Pods *)

Inductive PodPhase : Type :=
  PodPending | PodRunning | PodSucceeded | PodFailed | PodUnknown.

Global Instance PodPhase_eq_dec : EqDecision PodPhase.
Proof. solve_decision. Defined.

(** The scheduler's verdict on a pod: whether it was placed, and why not. *)
Record PodCondition : Type :=
  { Scheduled : bool; Reason : string }.

Record Container : Type :=
  { Requests : gmap string Z }.

(** The fields of [corev1.Pod] the controller and its predicates read. *)
Record Pod : Type :=
  { Namespace : string;
    Name : string;
    NodeSelector : gmap string string;
    Containers : list Container;
    Phase : PodPhase;
    Scheduling : option PodCondition }.

(** [types.NamespacedName] *)
Record NamespacedName : Type :=
  { key_Namespace : string; key_Name : string }.

Global Instance NamespacedName_eq_dec : EqDecision NamespacedName.
Proof. solve_decision. Defined.

(** The identity of a pod: the key under which the store holds it. *)
Definition identity (p : Pod) : NamespacedName :=
  {| key_Namespace := Namespace p; key_Name := Name p |}.

(** [ctrl.Request] *)
Record Request : Type := { req_NamespacedName : NamespacedName }.

(** [ctrl.Result]; [RequeueAfter] is a duration in nanoseconds. *)
Record Result : Type := { Requeue : bool; RequeueAfter : Z }.

(** [ctrl.Result{}] *)
Definition Result_zero : Result := {| Requeue := false; RequeueAfter := 0 |}.

(** [corev1.EventTypeNormal], [corev1.EventTypeWarning] *)
Inductive EventType : Type := EventTypeNormal | EventTypeWarning.

Global Instance EventType_eq_dec : EqDecision EventType.
Proof. solve_decision. Defined.

(** ** Calls to the collaborators *)

(** Every call the controller can issue.  The client verbs are the ones
    the controller is granted on pods by its RBAC markers, except [watch],
    which is set up once by [SetupWithManager].  [recorder_Event] stands for
    both [Event] and [Eventf], with the message already formatted.
    [log_Info v msg] is [lg.V(v).Info(msg)]. *)
Inductive Call : Type :=
  | client_Get (ctx : Context) (key : NamespacedName)
  | client_List (ctx : Context) (namespace : string)
  | client_Create (ctx : Context) (obj : Pod)
  | client_Update (ctx : Context) (obj : Pod)
  | client_Patch (ctx : Context) (obj : Pod)
  | client_Delete (ctx : Context) (obj : Pod)
  | recorder_Event (object : Pod) (eventtype : EventType)
                   (reason message : string)
  | provider_EnsureNodePoolForPod (p : Pod)
  | log_Info (v : nat) (msg : string).

(** What each call answers.  A Go [error] result is [None] for [nil]. *)
Definition Resp (c : Call) : Type :=
  match c with
  | client_Get _ _ => (Pod + error)%type
  | client_List _ _ => (list Pod + error)%type
  | client_Create _ _ | client_Update _ _
  | client_Patch _ _ | client_Delete _ _ => option error
  | recorder_Event _ _ _ _ => unit
  | provider_EnsureNodePoolForPod _ => option error
  | log_Info _ _ => unit
  end.

(** A Go function body: it returns, or issues a call and goes on with the
    answer. *)
Inductive prog (R : Type) : Type :=
  | Ret (r : R)
  | Do (c : Call) (k : Resp c -> prog R).

Arguments Ret {R} r.
Arguments Do {R} c k.

Fixpoint bind {A B : Type} (p : prog A) (f : A -> prog B) : prog B :=
  match p with
  | Ret a => f a
  | Do c k => Do c (fun x => bind (k x) f)
  end.

Definition call (c : Call) : prog (Resp c) := Do c Ret.

Global Instance prog_ret : MRet prog := @Ret.
Global Instance prog_bind : MBind prog := fun A B f p => bind p f.

(** ** Declarations of the repository that [Reconcile] uses *)

(** The predicates of the controller package, the constants of the [cloud]
    package and the event reasons are declared outside the file; so is
    [apierrors.IsNotFound].  [Reconcile] is embedded over any choice of
    them. *)
Class Package : Type :=
  { isPending : Pod -> bool;
    isUnschedulable : Pod -> bool;
    doesRequestResource : Pod -> string -> bool;
    hasNodeSelectors : Pod -> string -> bool;
    GKETPUNodeSelector : string;
    ErrDuplicateRequest : error;
    EventEnsuringNodePool : string;
    EventFailedEnsuringNodePool : string;
    EventNodePoolEnsured : string;
    IsNotFound : error -> bool }.

Record PodCriteria : Type := { ResourceType : string }.

(** ** The controller *)

Section Controller.

Context `{Package}.

(** The condition of the early return: the pod should not trigger a
    scale up. *)
Definition ignored (criteria : PodCriteria) (pod : Pod) : bool :=
  negb (isPending pod) || negb (isUnschedulable pod)
  || negb (doesRequestResource pod (ResourceType criteria))
  || negb (hasNodeSelectors pod GKETPUNodeSelector).

(** [func (r *CreationReconciler) Reconcile(ctx, req) (ctrl.Result, error)] *)
Definition Reconcile (criteria : PodCriteria) (ctx : Context) (req : Request)
  : prog (Result * option error) :=
  _ ← call (log_Info 3 "Reconciling Pod");
  got ← call (client_Get ctx (req_NamespacedName req));
  match got with
  | inr err =>
      if IsNotFound err
      then Ret (Result_zero, None)
      else Ret (Result_zero, Some (fmt_Errorf_w "getting pod: " err))
  | inl pod =>
      if ignored criteria pod
      then
        _ ← call (log_Info 3 "Ignoring pod");
        Ret (Result_zero, None)
      else
        _ ← call (log_Info 0 "Ensuring node pool for unschedulable pod");
        _ ← call (recorder_Event pod EventTypeNormal EventEnsuringNodePool
                    ("Ensuring Node Pool, triggered by Pod "
                       +:+ Namespace pod +:+ "/" +:+ Name pod +:+ "."));
        ensured ← call (provider_EnsureNodePoolForPod pod);
        match ensured with
        | Some err =>
            if errors_Is err ErrDuplicateRequest
            then
              _ ← call (log_Info 0
                          "Ignoring duplicate request to create node pool");
              Ret (Result_zero, None)
            else
              _ ← call (recorder_Event pod EventTypeWarning
                          EventFailedEnsuringNodePool
                          ("Failed to ensure existance of Node Pool: "
                             +:+ Error err));
              Ret (Result_zero, Some err)
        | None =>
            _ ← call (recorder_Event pod EventTypeNormal
                        EventNodePoolEnsured "Node Pool Ensured.");
            Ret (Result_zero, None)
        end
  end.

End Controller.

(** ** The collaborators *)

(** An implementation of [client.Client] over a store of pods.  The
    context argument is what [ctx.Err()] gives when the call is made.  A
    read answers from the store and leaves it as it is; a write answers and
    gives the new store. *)
Record client_Client (Store : Type) : Type :=
  { Get : option error -> NamespacedName -> Store -> Pod + error;
    List_ : option error -> string -> Store -> list Pod + error;
    Create : option error -> Pod -> Store -> option error * Store;
    Update : option error -> Pod -> Store -> option error * Store;
    Patch : option error -> Pod -> Store -> option error * Store;
    Delete : option error -> Pod -> Store -> option error * Store }.

Arguments Get {Store} _ _ _ _.
Arguments List_ {Store} _ _ _ _.
Arguments Create {Store} _ _ _ _.
Arguments Update {Store} _ _ _ _.
Arguments Patch {Store} _ _ _ _.
Arguments Delete {Store} _ _ _ _.

(** An implementation of [cloud.Provider] over the state of the cloud. *)
Record cloud_Provider (Cloud : Type) : Type :=
  { EnsureNodePoolForPod : Pod -> Cloud -> option error * Cloud }.

Arguments EnsureNodePoolForPod {Cloud} _ _ _.

(** [CreationReconciler]: the injected client and provider and the pod
    criteria.  The scheme is not read by [Reconcile]; the recorder and the
    logger are sinks, what they are sent is kept in the trace of the run. *)
Record CreationReconciler (Store Cloud : Type) : Type :=
  { Client : client_Client Store;
    podCriteria : PodCriteria;
    Provider : cloud_Provider Cloud }.

Arguments Client {Store Cloud} _.
Arguments podCriteria {Store Cloud} _.
Arguments Provider {Store Cloud} _.

(** What the collaborators hold while the controller runs, and the clock. *)
Record World (Store Cloud : Type) : Type :=
  { now : nat; store : Store; cloud : Cloud }.

Arguments now {Store Cloud} _.
Arguments store {Store Cloud} _.
Arguments cloud {Store Cloud} _.

Section Run.

Context {Store Cloud : Type}.
Implicit Types (r : CreationReconciler Store Cloud) (w : World Store Cloud).

Definition with_store (w : World Store Cloud) (s : Store) : World Store Cloud :=
  {| now := now w; store := s; cloud := cloud w |}.

Definition with_cloud (w : World Store Cloud) (c : Cloud) : World Store Cloud :=
  {| now := now w; store := store w; cloud := c |}.

Definition tick (w : World Store Cloud) : World Store Cloud :=
  {| now := S (now w); store := store w; cloud := cloud w |}.

(** The answer of the collaborators to one call made at instant [now w],
    and what they hold afterwards. *)
Definition handle r (c : Call) (w : World Store Cloud)
  : Resp c * World Store Cloud :=
  match c as c0 return Resp c0 * World Store Cloud with
  | client_Get ctx key =>
      (Get (Client r) (ctx_Err ctx (now w)) key (store w), w)
  | client_List ctx namespace =>
      (List_ (Client r) (ctx_Err ctx (now w)) namespace (store w), w)
  | client_Create ctx obj =>
      let (e, s) := Create (Client r) (ctx_Err ctx (now w)) obj (store w) in
      (e, with_store w s)
  | client_Update ctx obj =>
      let (e, s) := Update (Client r) (ctx_Err ctx (now w)) obj (store w) in
      (e, with_store w s)
  | client_Patch ctx obj =>
      let (e, s) := Patch (Client r) (ctx_Err ctx (now w)) obj (store w) in
      (e, with_store w s)
  | client_Delete ctx obj =>
      let (e, s) := Delete (Client r) (ctx_Err ctx (now w)) obj (store w) in
      (e, with_store w s)
  | recorder_Event _ _ _ _ => (tt, w)
  | provider_EnsureNodePoolForPod p =>
      let (e, c) := EnsureNodePoolForPod (Provider r) p (cloud w) in
      (e, with_cloud w c)
  | log_Info _ _ => (tt, w)
  end.

(** The outcome of a run: what was returned, what the collaborators hold,
    and the calls made, first call first. *)
Record Outcome (R : Type) : Type :=
  { returned : R; world : World Store Cloud; trace : list Call }.

Arguments returned {R} _.
Arguments world {R} _.
Arguments trace {R} _.

Fixpoint run {R : Type} r (p : prog R) (w : World Store Cloud) : Outcome R :=
  match p with
  | Ret x => {| returned := x; world := w; trace := [] |}
  | Do c k =>
      let (x, w1) := handle r c w in
      let o := run r (k x) (tick w1) in
      {| returned := returned o; world := world o; trace := c :: trace o |}
  end.

End Run.

Arguments returned {Store Cloud R} _.
Arguments world {Store Cloud R} _.
Arguments trace {Store Cloud R} _.

(** ** Reading a trace *)

Definition is_client_call (c : Call) : bool :=
  match c with
  | client_Get _ _ | client_List _ _ | client_Create _ _
  | client_Update _ _ | client_Patch _ _ | client_Delete _ _ => true
  | _ => false
  end.

Definition is_provider_call (c : Call) : bool :=
  match c with
  | provider_EnsureNodePoolForPod _ => true
  | _ => false
  end.

Definition is_notification (c : Call) : bool :=
  match c with
  | recorder_Event _ _ _ _ => true
  | _ => false
  end.

Definition is_warning (c : Call) : bool :=
  match c with
  | recorder_Event _ EventTypeWarning _ _ => true
  | _ => false
  end.

(** The calls of a trace to the client, to the provider and to the
    recorder, in the order they were made. *)
Definition client_calls (t : list Call) : list Call := List.filter is_client_call t.
Definition provider_calls (t : list Call) : list Call := List.filter is_provider_call t.
Definition notifications (t : list Call) : list Call := List.filter is_notification t.
Definition warnings (t : list Call) : list Call := List.filter is_warning t.

(** A call with an effect outside the controller that the owner of a
    context would not want after the signal: a write to the store, a
    notification or a request to the provider. *)
Definition is_side_effect (c : Call) : bool :=
  match c with
  | client_Get _ _ | client_List _ _ | log_Info _ _ => false
  | _ => true
  end.

(** ** One reconciliation against the collaborators *)

Section Reconciliation.

Context `{Package} {Store Cloud : Type}.
Implicit Types (r : CreationReconciler Store Cloud) (w : World Store Cloud).

(** [r.Reconcile(ctx, req)] started when the collaborators hold [w]. *)
Definition reconcile r (ctx : Context) (req : Request) w
  : Outcome (Result * option error) :=
  run r (Reconcile (podCriteria r) ctx req) w.

(** What the client answers to the fetch of that reconciliation: the fetch
    is its second call. *)
Definition fetch r (ctx : Context) (req : Request) w : Pod + error :=
  Get (Client r) (ctx_Err ctx (S (now w))) (req_NamespacedName req) (store w).

(** What the provider answers when asked for [pod] in [w]. *)
Definition ensure r (pod : Pod) w : option error :=
  fst (EnsureNodePoolForPod (Provider r) pod (cloud w)).

(** The pod passes the four checks of [Reconcile]. *)
Definition eligible r (pod : Pod) : bool := negb (ignored (podCriteria r) pod).

(** Two reconciliations of the same request, one after the other. *)
Definition reconcile_twice r (ctx1 ctx2 : Context) (req : Request) w
  : Outcome (Result * option error) * Outcome (Result * option error) :=
  let o1 := reconcile r ctx1 req w in
  (o1, reconcile r ctx2 req (world o1)).

End Reconciliation.

(** ** The provider's contract *)

(** A provider is faithfully idempotent on pod identity, for a measure
    [provisioned] of the node pools it has created: one call creates at
    most one node pool, and a call for a pod after a call for a pod of the
    same identity fails with the duplicate-request error and creates
    nothing. *)
Definition faithfully_idempotent `{Package} {Cloud : Type}
    (P : cloud_Provider Cloud) (provisioned : Cloud -> nat) : Prop :=
  (forall p c,
      provisioned (snd (EnsureNodePoolForPod P p c)) <= S (provisioned c)) /\
  (forall p p' c,
      identity p = identity p' ->
      let c1 := snd (EnsureNodePoolForPod P p c) in
      (exists e, fst (EnsureNodePoolForPod P p' c1) = Some e /\
                 errors_Is e ErrDuplicateRequest = true) /\
      provisioned (snd (EnsureNodePoolForPod P p' c1)) = provisioned c1).

(** ** The cancellation requirement *)

(** The signal of [ctx] fires at [t], and no call to the provider has been
    made before [t]. *)
Definition fires_before_commit (ctx : Context) (t : nat) (tr : list Call) : Prop :=
  (exists e, fires ctx = Some (t, e)) /\
  forall i c, tr !! i = Some c -> is_provider_call c = true -> t <= i.

(** A reconciliation respects the signal of its context: when the signal
    fires before the provider call commits, no call made from then on has a
    side effect, and an error is returned. *)
Definition respects_cancellation {Store Cloud : Type}
    (ctx : Context) (o : @Outcome Store Cloud (Result * option error)) : Prop :=
  forall t, fires_before_commit ctx t (trace o) ->
    (forall i c, t <= i -> trace o !! i = Some c -> is_side_effect c = false) /\
    snd (returned o) <> None.

(** ** An instance of the missing declarations *)

(** Modelled from the spec: [isPending], whose Go body is not in the file;
    the phase is Pending. *)
Definition spec_isPending (pod : Pod) : bool :=
  bool_decide (Phase pod = PodPending).

(** Modelled from the spec: [isUnschedulable], whose Go body is not in the
    file; the scheduling condition reports failure to place the pod and its
    reason says that no node satisfies the constraints. *)
Definition spec_isUnschedulable (pod : Pod) : bool :=
  match Scheduling pod with
  | Some c => negb (Scheduled c) && String.eqb (Reason c) "Unschedulable"
  | None => false
  end.

(** Modelled from the spec: [doesRequestResource], whose Go body is not in
    the file; at least one container's requests hold a positive quantity
    for the resource type. *)
Definition spec_doesRequestResource (pod : Pod) (resourceType : string) : bool :=
  existsb (fun c => match Requests c !! resourceType with
                    | Some q => (0 <? q)%Z
                    | None => false
                    end) (Containers pod).

(** Modelled from the spec: [hasNodeSelectors], whose Go body is not in the
    file; the node selector constraints contain the key. *)
Definition spec_hasNodeSelectors (pod : Pod) (selectorKey : string) : bool :=
  bool_decide (is_Some (NodeSelector pod !! selectorKey)).

(** Modelled from the spec: [apierrors.IsNotFound]; the error is, or wraps,
    the store's not-found signal. *)
Fixpoint spec_IsNotFound (err : error) : bool :=
  match err with
  | StatusError reason _ => String.eqb reason "NotFound"
  | wrapError _ inner => spec_IsNotFound inner
  | errorString _ _ => false
  end.

(** Modelled from the spec: the constants of the [cloud] package and the
    event reasons, which are declared outside the file, with the names the
    spec's scenarios give them. *)
Definition spec_Package : Package :=
  {| isPending := spec_isPending;
     isUnschedulable := spec_isUnschedulable;
     doesRequestResource := spec_doesRequestResource;
     hasNodeSelectors := spec_hasNodeSelectors;
     GKETPUNodeSelector := "cloud.example.com/accelerator-family";
     ErrDuplicateRequest := errorString 3 "duplicate request";
     EventEnsuringNodePool := "provisioning starting";
     EventFailedEnsuringNodePool := "provisioning failed";
     EventNodePoolEnsured := "provisioning ensured";
     IsNotFound := spec_IsNotFound |}.

(** ** Sample collaborators *)

Definition pod_key (key : NamespacedName) : string * string :=
  (key_Namespace key, key_Name key).

(** A client over a map of pods that reports the context's error when the
    signal is on, and the not-found signal for a key it does not hold. *)
Definition map_client : client_Client (gmap (string * string) Pod) :=
  {| Get cerr key s :=
       match cerr with
       | Some e => inr e
       | None =>
           match s !! pod_key key with
           | Some p => inl p
           | None => inr (StatusError "NotFound" "pod not found")
           end
       end;
     List_ cerr namespace s :=
       match cerr with
       | Some e => inr e
       | None =>
           inl (List.filter (fun p => String.eqb (Namespace p) namespace)
                  (snd <$> map_to_list s))
       end;
     Create cerr p s :=
       match cerr with
       | Some e => (Some e, s)
       | None => (None, <[pod_key (identity p) := p]> s)
       end;
     Update cerr p s :=
       match cerr with
       | Some e => (Some e, s)
       | None => (None, <[pod_key (identity p) := p]> s)
       end;
     Patch cerr p s :=
       match cerr with
       | Some e => (Some e, s)
       | None => (None, <[pod_key (identity p) := p]> s)
       end;
     Delete cerr p s :=
       match cerr with
       | Some e => (Some e, s)
       | None => (None, delete (pod_key (identity p)) s)
       end |}.

(** A client whose every fetch fails with an error of the server. *)
Definition failing_client : client_Client unit :=
  {| Get _ _ _ := inr (StatusError "InternalError" "etcd unavailable");
     List_ _ _ _ := inr (StatusError "InternalError" "etcd unavailable");
     Create _ _ s := (Some (StatusError "InternalError" "etcd unavailable"), s);
     Update _ _ s := (Some (StatusError "InternalError" "etcd unavailable"), s);
     Patch _ _ s := (Some (StatusError "InternalError" "etcd unavailable"), s);
     Delete _ _ s := (Some (StatusError "InternalError" "etcd unavailable"), s) |}.

(** A provider that keeps the identities it has created a node pool for,
    and answers the duplicate-request error for one it already holds. *)
Definition registry_provider `{Package} : cloud_Provider (list NamespacedName) :=
  {| EnsureNodePoolForPod p c :=
       if bool_decide (identity p ∈ c)
       then (Some (wrapError "node pool already requested: duplicate request"
                     ErrDuplicateRequest), c)
       else (None, identity p :: c) |}.

(** A provider out of quota: every call fails, no node pool is created. *)
Definition exhausted_provider : cloud_Provider (list NamespacedName) :=
  {| EnsureNodePoolForPod p c := (Some (errorString 4 "quota exceeded"), c) |}.

(** The eligible pod of the spec's scenario 8, and the same pod running. *)
Definition pending_pod : Pod :=
  {| Namespace := "default";
     Name := "trainer-0";
     NodeSelector := {[ "cloud.example.com/accelerator-family" := "v5" ]};
     Containers := [ {| Requests := {[ "example.com/accelerator" := 4%Z ]} |} ];
     Phase := PodPending;
     Scheduling := Some {| Scheduled := false; Reason := "Unschedulable" |} |}.

Definition running_pod : Pod :=
  {| Namespace := "default";
     Name := "trainer-0";
     NodeSelector := {[ "cloud.example.com/accelerator-family" := "v5" ]};
     Containers := [ {| Requests := {[ "example.com/accelerator" := 4%Z ]} |} ];
     Phase := PodRunning;
     Scheduling := Some {| Scheduled := true; Reason := "" |} |}.

Definition trainer : Request :=
  {| req_NamespacedName := {| key_Namespace := "default"; key_Name := "trainer-0" |} |}.

Definition accelerator : PodCriteria :=
  {| ResourceType := "example.com/accelerator" |}.

(** The controller wired to the map client and to a provider. *)
Definition controller (P : cloud_Provider (list NamespacedName))
  : CreationReconciler (gmap (string * string) Pod) (list NamespacedName) :=
  {| Client := map_client; podCriteria := accelerator; Provider := P |}.

(** The controller wired to the failing client. *)
Definition cut_off_controller : CreationReconciler unit (list NamespacedName) :=
  {| Client := failing_client; podCriteria := accelerator;
     Provider := exhausted_provider |}.

(** A cluster that holds one pod, a cloud with no node pool, instant 0. *)
Definition cluster_with (pod : Pod)
  : World (gmap (string * string) Pod) (list NamespacedName) :=
  {| now := 0; store := {[ pod_key (identity pod) := pod ]}; cloud := [] |}.

Definition cut_off_cluster : World unit (list NamespacedName) :=
  {| now := 0; store := tt; cloud := [] |}.

(** The node pools the registry provider has created. *)
Definition pools_created (c : list NamespacedName) : nat := length c.

(** The same cluster once the provider has created the node pool of the
    pod. *)
Definition cluster_provisioned (pod : Pod)
  : World (gmap (string * string) Pod) (list NamespacedName) :=
  {| now := 0; store := {[ pod_key (identity pod) := pod ]};
     cloud := [identity pod] |}.

(** The controller of the scenarios: the spec's declarations, the map
    client and the registry provider. *)
Definition scenario_controller
  : CreationReconciler (gmap (string * string) Pod) (list NamespacedName) :=
  controller (@registry_provider spec_Package).

(** A reconciliation of the eligible pod whose context is cancelled at
    instant 2: after the fetch, which is the call of instant 1, has
    answered, and before the provider is called. *)
Definition cancelled_after_fetch : Outcome (Result * option error) :=
  @reconcile spec_Package _ _ scenario_controller
    (context_WithCancel 2) trainer (cluster_with pending_pod).

(** ** The shape of a run *)

(** The two calls every reconciliation starts with. *)
Definition opening (ctx : Context) (req : Request) : list Call :=
  [ log_Info 3 "Reconciling Pod";
    client_Get ctx (req_NamespacedName req) ].

(** The three calls that follow for a pod that passes the checks. *)
Definition starting `{Package} (pod : Pod) : list Call :=
  [ log_Info 0 "Ensuring node pool for unschedulable pod";
    recorder_Event pod EventTypeNormal EventEnsuringNodePool
      ("Ensuring Node Pool, triggered by Pod "
         +:+ Namespace pod +:+ "/" +:+ Name pod +:+ ".");
    provider_EnsureNodePoolForPod pod ].

(** The collaborators [n] calls after [w], the cloud being left as [c]. *)
Definition after {Store Cloud : Type} (w : World Store Cloud) (n : nat) (c : Cloud)
  : World Store Cloud :=
  {| now := n + now w; store := store w; cloud := c |}.

(** ** Every answer of the collaborators *)

(** [P] holds of whatever [p] returns, whatever the collaborators answer. *)
Fixpoint always {R : Type} (P : R -> Prop) (p : prog R) : Prop :=
  match p with
  | Ret x => P x
  | Do c k => forall x : Resp c, always P (k x)
  end.

(** ** Subjects, contexts and redelivery *)

(** The pod a call is about, for the calls that carry one. *)
Definition call_pod (c : Call) : option Pod :=
  match c with
  | client_Create _ obj | client_Update _ obj
  | client_Patch _ obj | client_Delete _ obj => Some obj
  | recorder_Event object _ _ _ => Some object
  | provider_EnsureNodePoolForPod p => Some p
  | client_Get _ _ | client_List _ _ | log_Info _ _ => None
  end.


(** The delivery mechanism handing the same request to [Reconcile] once
    per context of [ctxs], each reconciliation starting where the one
    before ended. *)
Fixpoint reconcile_each `{Package} {Store Cloud : Type}
    (r : CreationReconciler Store Cloud) (ctxs : list Context) (req : Request)
    (w : World Store Cloud) : list (Outcome (Result * option error)) :=
  match ctxs with
  | [] => []
  | ctx :: rest =>
      let o := reconcile r ctx req w in
      o :: reconcile_each r rest req (world o)
  end.

(** * Properties *)

(** ** The paths of [Reconcile] *)

Section Paths.

Context `{Package} {Store Cloud : Type}.
Variable r : CreationReconciler Store Cloud.
Variables (ctx : Context) (req : Request) (w : World Store Cloud).

(** The fetch signals not-found. *)
Lemma reconcile_not_found err :
  fetch r ctx req w = inr err -> IsNotFound err = true ->
  reconcile r ctx req w =
    {| returned := (Result_zero, None);
       world := after w 2 (cloud w);
       trace := opening ctx req |}.
Proof.
  unfold fetch, reconcile, Reconcile. cbn. intros -> ->. reflexivity.
Qed.

(** The fetch fails otherwise. *)
Lemma reconcile_fetch_failed err :
  fetch r ctx req w = inr err -> IsNotFound err = false ->
  reconcile r ctx req w =
    {| returned := (Result_zero, Some (fmt_Errorf_w "getting pod: " err));
       world := after w 2 (cloud w);
       trace := opening ctx req |}.
Proof.
  unfold fetch, reconcile, Reconcile. cbn. intros -> ->. reflexivity.
Qed.

(** The pod fails one of the four checks. *)
Lemma reconcile_ignored pod :
  fetch r ctx req w = inl pod -> eligible r pod = false ->
  reconcile r ctx req w =
    {| returned := (Result_zero, None);
       world := after w 3 (cloud w);
       trace := opening ctx req ++ [log_Info 3 "Ignoring pod"] |}.
Proof.
  unfold fetch, reconcile, Reconcile, eligible. cbn.
  intros -> Hig. apply negb_false_iff in Hig. rewrite Hig. reflexivity.
Qed.

(** The provider succeeds. *)
Lemma reconcile_ensured pod :
  fetch r ctx req w = inl pod -> eligible r pod = true ->
  ensure r pod w = None ->
  reconcile r ctx req w =
    {| returned := (Result_zero, None);
       world := after w 6 (snd (EnsureNodePoolForPod (Provider r) pod (cloud w)));
       trace := opening ctx req ++ starting pod ++
                [recorder_Event pod EventTypeNormal EventNodePoolEnsured
                   "Node Pool Ensured."] |}.
Proof.
  unfold fetch, reconcile, Reconcile, eligible, ensure. cbn.
  intros -> Hel. apply negb_true_iff in Hel. rewrite Hel. cbn.
  destruct (EnsureNodePoolForPod _ _ _) as [e c]. cbn. intros ->. reflexivity.
Qed.

(** The provider fails with the duplicate-request error. *)
Lemma reconcile_duplicate pod err :
  fetch r ctx req w = inl pod -> eligible r pod = true ->
  ensure r pod w = Some err -> errors_Is err ErrDuplicateRequest = true ->
  reconcile r ctx req w =
    {| returned := (Result_zero, None);
       world := after w 6 (snd (EnsureNodePoolForPod (Provider r) pod (cloud w)));
       trace := opening ctx req ++ starting pod ++
                [log_Info 0 "Ignoring duplicate request to create node pool"] |}.
Proof.
  unfold fetch, reconcile, Reconcile, eligible, ensure. cbn.
  intros -> Hel. apply negb_true_iff in Hel. rewrite Hel. cbn.
  destruct (EnsureNodePoolForPod _ _ _) as [e c]. cbn. intros -> ->. reflexivity.
Qed.

(** The provider fails with another error. *)
Lemma reconcile_failed pod err :
  fetch r ctx req w = inl pod -> eligible r pod = true ->
  ensure r pod w = Some err -> errors_Is err ErrDuplicateRequest = false ->
  reconcile r ctx req w =
    {| returned := (Result_zero, Some err);
       world := after w 6 (snd (EnsureNodePoolForPod (Provider r) pod (cloud w)));
       trace := opening ctx req ++ starting pod ++
                [recorder_Event pod EventTypeWarning EventFailedEnsuringNodePool
                   ("Failed to ensure existance of Node Pool: " +:+ Error err)] |}.
Proof.
  unfold fetch, reconcile, Reconcile, eligible, ensure. cbn.
  intros -> Hel. apply negb_true_iff in Hel. rewrite Hel. cbn.
  destruct (EnsureNodePoolForPod _ _ _) as [e c]. cbn. intros -> ->. reflexivity.
Qed.

End Paths.

(** ** Errors *)

Lemma same_error_refl err : same_error err err = true.
Proof.
  destruct err; cbn; apply bool_decide_eq_true; reflexivity.
Qed.

(** An error is itself. *)
Lemma errors_Is_refl err : errors_Is err err = true.
Proof.
  destruct err; cbn [errors_Is]; rewrite same_error_refl; reflexivity.
Qed.

(** An error made by [fmt.Errorf] with [%w] is the error it wraps. *)
Lemma errors_Is_wrap prefix err target :
  errors_Is err target = true -> errors_Is (fmt_Errorf_w prefix err) target = true.
Proof.
  intros Hi. unfold fmt_Errorf_w. cbn [errors_Is]. rewrite Hi. apply orb_true_r.
Qed.

(** ** Case analysis on the path taken *)

(** Splits a goal about [reconcile r ctx req w] along the six paths and
    rewrites the run on each. *)
Ltac by_path r ctx req w :=
  let got := fresh "got" in
  let pod := fresh "pod" in
  let err := fresh "err" in
  let Hf := fresh "Hfetch" in
  let Hn := fresh "Hnotfound" in
  let He := fresh "Heligible" in
  let Hp := fresh "Hensure" in
  let Hd := fresh "Hduplicate" in
  destruct (fetch r ctx req w) as [pod|err] eqn:Hf;
  [ destruct (eligible r pod) eqn:He;
    [ destruct (ensure r pod w) as [err|] eqn:Hp;
      [ destruct (errors_Is err ErrDuplicateRequest) eqn:Hd;
        [ rewrite (reconcile_duplicate r ctx req w pod err Hf He Hp Hd)
        | rewrite (reconcile_failed r ctx req w pod err Hf He Hp Hd) ]
      | rewrite (reconcile_ensured r ctx req w pod Hf He Hp) ]
    | rewrite (reconcile_ignored r ctx req w pod Hf He) ]
  | destruct (IsNotFound err) eqn:Hn;
    [ rewrite (reconcile_not_found r ctx req w err Hf Hn)
    | rewrite (reconcile_fetch_failed r ctx req w err Hf Hn) ] ].

Section Claims.

Context `{Package} {Store Cloud : Type}.
Implicit Types (r : CreationReconciler Store Cloud) (w : World Store Cloud).

Lemma eligible_checks r pod :
  eligible r pod = true <->
  isPending pod = true /\ isUnschedulable pod = true /\
  doesRequestResource pod (ResourceType (podCriteria r)) = true /\
  hasNodeSelectors pod GKETPUNodeSelector = true.
Proof.
  unfold eligible, ignored.
  rewrite negb_true_iff, !orb_false_iff, !negb_false_iff. tauto.
Qed.

(** What a run returns has every property that holds on all the leaves of
    the tree. *)
Lemma always_run {R : Type} (P : R -> Prop) r (p : prog R) :
  always P p -> forall w, P (returned (run r p w)).
Proof.
  induction p as [x | c k IH]; cbn; intros Hp w.
  - exact Hp.
  - destruct (handle r c w) as [x w1]. cbn. apply IH, Hp.
Qed.

(** C1: when the fetched pod fails one of the four checks (pending,
    unschedulable, requests the configured resource, carries the TPU node
    selector), reconcile returns success with the zero result, never calls
    the provider and emits no notification; so the provider is called only
    for a pod that passes all four. *)
Theorem C1_provider_called_only_when_eligible r ctx req w pod :
  fetch r ctx req w = inl pod ->
  (provider_calls (trace (reconcile r ctx req w)) <> [] ->
     isPending pod = true /\ isUnschedulable pod = true /\
     doesRequestResource pod (ResourceType (podCriteria r)) = true /\
     hasNodeSelectors pod GKETPUNodeSelector = true) /\
  (isPending pod = false \/ isUnschedulable pod = false \/
   doesRequestResource pod (ResourceType (podCriteria r)) = false \/
   hasNodeSelectors pod GKETPUNodeSelector = false ->
     returned (reconcile r ctx req w) = (Result_zero, None) /\
     provider_calls (trace (reconcile r ctx req w)) = [] /\
     notifications (trace (reconcile r ctx req w)) = []).
Proof.
  intros Hf. destruct (eligible r pod) eqn:He.
  - split.
    + intros _. apply eligible_checks, He.
    + apply eligible_checks in He. intros Hno.
      destruct He as (Hp & Hu & Hr & Hs).
      destruct Hno as [Hno | [Hno | [Hno | Hno]]]; congruence.
  - rewrite (reconcile_ignored r ctx req w pod Hf He). cbn.
    split; [congruence | auto].
Qed.

(** C2: for an eligible pod, when the provider fails with an error that is
    the duplicate-request error, reconcile emits no warning, does not
    return the error, and returns success with the zero result. *)
Theorem C2_duplicate_request_is_success r ctx req w pod err :
  fetch r ctx req w = inl pod ->
  eligible r pod = true ->
  ensure r pod w = Some err ->
  errors_Is err ErrDuplicateRequest = true ->
  warnings (trace (reconcile r ctx req w)) = [] /\
  returned (reconcile r ctx req w) = (Result_zero, None).
Proof.
  intros Hf He Hp Hd.
  rewrite (reconcile_duplicate r ctx req w pod err Hf He Hp Hd).
  split; reflexivity.
Qed.

(** C4: for an eligible pod, when the provider fails with an error that is
    not the duplicate-request error, reconcile emits exactly one warning,
    whose message ends with the text of the error, and returns that error. *)
Theorem C4_provider_failure_is_reported r ctx req w pod err :
  fetch r ctx req w = inl pod ->
  eligible r pod = true ->
  ensure r pod w = Some err ->
  errors_Is err ErrDuplicateRequest = false ->
  warnings (trace (reconcile r ctx req w)) =
    [recorder_Event pod EventTypeWarning EventFailedEnsuringNodePool
       ("Failed to ensure existance of Node Pool: " +:+ Error err)] /\
  snd (returned (reconcile r ctx req w)) = Some err.
Proof.
  intros Hf He Hp Hd.
  rewrite (reconcile_failed r ctx req w pod err Hf He Hp Hd).
  split; reflexivity.
Qed.

(** C5: when the fetch fails, reconcile calls no provider and emits no
    notification; it returns success with the zero result if the error is
    a not-found, and otherwise a non-nil error, which wraps the fetch's
    error. *)
Theorem C5_fetch_failure r ctx req w err :
  fetch r ctx req w = inr err ->
  provider_calls (trace (reconcile r ctx req w)) = [] /\
  notifications (trace (reconcile r ctx req w)) = [] /\
  returned (reconcile r ctx req w) =
    (Result_zero,
     if IsNotFound err then None
     else Some (wrapError ("getting pod: " +:+ Error err) err)).
Proof.
  intros Hf. destruct (IsNotFound err) eqn:Hn.
  - rewrite (reconcile_not_found r ctx req w err Hf Hn). auto.
  - rewrite (reconcile_fetch_failed r ctx req w err Hf Hn). auto.
Qed.

(** C6: for an eligible pod, when the provider succeeds, the last call of
    reconcile is the Normal notification that the node pool is ensured,
    and reconcile returns success with the zero result. *)
Theorem C6_success_is_notified r ctx req w pod :
  fetch r ctx req w = inl pod ->
  eligible r pod = true ->
  ensure r pod w = None ->
  last (trace (reconcile r ctx req w)) =
    Some (recorder_Event pod EventTypeNormal EventNodePoolEnsured
            "Node Pool Ensured.") /\
  returned (reconcile r ctx req w) = (Result_zero, None).
Proof.
  intros Hf He Hp.
  rewrite (reconcile_ensured r ctx req w pod Hf He Hp).
  split; reflexivity.
Qed.

(** C7: for an eligible pod, the trace of reconcile holds the Normal
    notification that provisioning starts, later the call to the provider
    for that pod, and no other call to the provider. *)
Theorem C7_starting_before_provider r ctx req w pod :
  fetch r ctx req w = inl pod ->
  eligible r pod = true ->
  exists before between after,
    trace (reconcile r ctx req w) =
      before
      ++ [recorder_Event pod EventTypeNormal EventEnsuringNodePool
            ("Ensuring Node Pool, triggered by Pod "
               +:+ Namespace pod +:+ "/" +:+ Name pod +:+ ".")]
      ++ between ++ [provider_EnsureNodePoolForPod pod] ++ after /\
    provider_calls before = [] /\
    provider_calls between = [] /\
    provider_calls after = [].
Proof.
  intros Hf He.
  exists [log_Info 3 "Reconciling Pod";
          client_Get ctx (req_NamespacedName req);
          log_Info 0 "Ensuring node pool for unschedulable pod"], [].
  destruct (ensure r pod w) as [err|] eqn:Hp.
  - destruct (errors_Is err ErrDuplicateRequest) eqn:Hd.
    + rewrite (reconcile_duplicate r ctx req w pod err Hf He Hp Hd).
      eexists. repeat split.
    + rewrite (reconcile_failed r ctx req w pod err Hf He Hp Hd).
      eexists. repeat split.
  - rewrite (reconcile_ensured r ctx req w pod Hf He Hp).
    eexists. repeat split.
Qed.

(** C9: the one call reconcile makes to the client is the fetch of the
    requested pod, and the store is afterwards what it was. *)
Theorem C9_store_only_read r ctx req w :
  client_calls (trace (reconcile r ctx req w)) =
    [client_Get ctx (req_NamespacedName req)] /\
  store (world (reconcile r ctx req w)) = store w.
Proof.
  by_path r ctx req w; split; reflexivity.
Qed.

(** What [Reconcile] returns has the zero result on every leaf. *)
Lemma Reconcile_always_zero criteria ctx req :
  always (fun x => fst x = Result_zero) (Reconcile criteria ctx req).
Proof.
  unfold Reconcile. cbn. intros _ [pod | err].
  - destruct (ignored criteria pod); cbn.
    + intros _. reflexivity.
    + intros _ _ [err|]; cbn.
      * destruct (errors_Is err ErrDuplicateRequest); cbn; intros _; reflexivity.
      * intros _. reflexivity.
  - destruct (IsNotFound err); reflexivity.
Qed.

(** C10: whatever the collaborators answer, the result reconcile returns is
    the zero result: no requeue flag and no requeue delay. *)
Theorem C10_result_is_zero r ctx req w :
  fst (returned (reconcile r ctx req w)) = Result_zero /\
  Requeue (fst (returned (reconcile r ctx req w))) = false /\
  RequeueAfter (fst (returned (reconcile r ctx req w))) = 0%Z.
Proof.
  assert (Hz : fst (returned (reconcile r ctx req w)) = Result_zero).
  { unfold reconcile.
    apply (always_run (fun x => fst x = Result_zero)), Reconcile_always_zero. }
  rewrite Hz. repeat split.
Qed.

(** The provider's state after a reconciliation. *)
Lemma reconcile_cloud r ctx req w :
  cloud (world (reconcile r ctx req w)) =
    match fetch r ctx req w with
    | inl pod =>
        if eligible r pod
        then snd (EnsureNodePoolForPod (Provider r) pod (cloud w))
        else cloud w
    | inr _ => cloud w
    end.
Proof.
  by_path r ctx req w; cbn; rewrite ?Heligible; reflexivity.
Qed.

(** C3: against a provider that is faithfully idempotent on pod identity,
    two reconciliations in sequence that fetch the same answer for the
    request (the pod, or the not-found signal) add at most one node pool,
    and the second returns success with the zero result. *)
Theorem C3_second_reconcile_is_suppressed
    (provisioned : Cloud -> nat) r ctx1 ctx2 req w got :
  faithfully_idempotent (Provider r) provisioned ->
  fetch r ctx1 req w = got ->
  fetch r ctx2 req (world (fst (reconcile_twice r ctx1 ctx2 req w))) = got ->
  (forall err, got = inr err -> IsNotFound err = true) ->
  provisioned (cloud (world (snd (reconcile_twice r ctx1 ctx2 req w))))
    <= S (provisioned (cloud w)) /\
  returned (snd (reconcile_twice r ctx1 ctx2 req w)) = (Result_zero, None).
Proof.
  intros [Hone Hdup] Hf1 Hf2 Hnf.
  unfold reconcile_twice in *. cbn [fst snd] in *.
  pose proof (reconcile_cloud r ctx1 req w) as Hc. rewrite Hf1 in Hc.
  remember (world (reconcile r ctx1 req w)) as w1 eqn:Hw1. clear Hw1.
  destruct got as [pod | err].
  - destruct (eligible r pod) eqn:He.
    + destruct (Hdup pod pod (cloud w) eq_refl) as [(e & He1 & He2) Hsame].
      cbn in He1, Hsame.
      assert (Hens : ensure r pod w1 = Some e).
      { unfold ensure. rewrite Hc. exact He1. }
      rewrite (reconcile_duplicate r ctx2 req w1 pod e Hf2 He Hens He2).
      cbn. split; [| reflexivity].
      rewrite Hc, Hsame. apply Hone.
    + rewrite (reconcile_ignored r ctx2 req w1 pod Hf2 He).
      cbn. rewrite Hc. split; [lia | reflexivity].
  - rewrite (reconcile_not_found r ctx2 req w1 err Hf2 (Hnf err eq_refl)).
    cbn. rewrite Hc. split; [lia | reflexivity].
Qed.

(** C8, as the code has it: [Reconcile] hands the signal to the fetch and
    reads it nowhere else.  When the signal is on at the fetch and the
    client reports it as the fetch's error, reconcile makes no call with a
    side effect and returns a non-nil error that wraps the context's
    error. *)
Theorem C8_cancellation_reported_by_fetch r ctx req w t e :
  fires ctx = Some (t, e) ->
  t <= S (now w) ->
  Get (Client r) (Some e) (req_NamespacedName req) (store w) = inr e ->
  IsNotFound e = false ->
  respects_cancellation ctx (reconcile r ctx req w) /\
  (forall c, In c (trace (reconcile r ctx req w)) -> is_side_effect c = false) /\
  exists err, snd (returned (reconcile r ctx req w)) = Some err /\
              errors_Is err e = true.
Proof.
  intros Hfires Hon Hget Hnf.
  assert (Hf : fetch r ctx req w = inr e).
  { unfold fetch, ctx_Err. rewrite Hfires.
    apply Nat.leb_le in Hon. rewrite Hon. exact Hget. }
  rewrite (reconcile_fetch_failed r ctx req w e Hf Hnf). cbn [trace returned snd].
  assert (Hquiet : forall c,
             In c [log_Info 3 "Reconciling Pod";
                   client_Get ctx (req_NamespacedName req)] ->
             is_side_effect c = false).
  { intros c [<- | [<- | []]]; reflexivity. }
  split; [| split].
  - intros t' _. split; [| discriminate].
    intros i c _ Hi. apply Hquiet.
    apply list_elem_of_In, list_elem_of_lookup. eauto.
  - exact Hquiet.
  - eexists. split; [reflexivity |].
    apply errors_Is_wrap, errors_Is_refl.
Qed.

End Claims.

(** ** The scenarios *)

(** The registry provider is faithfully idempotent on pod identity. *)
Lemma registry_provider_faithful `{Package} :
  faithfully_idempotent registry_provider pools_created.
Proof.
  split.
  - intros p c. unfold pools_created. cbn.
    case_bool_decide; cbn; lia.
  - intros p p' c Hid. cbn.
    set (c1 := snd (if bool_decide (identity p ∈ c)
                    then (Some (wrapError
                                  "node pool already requested: duplicate request"
                                  ErrDuplicateRequest), c)
                    else (None, identity p :: c))).
    assert (Hin : identity p' ∈ c1).
    { subst c1. rewrite <- Hid. case_bool_decide; cbn.
      - assumption.
      - apply elem_of_cons. left. reflexivity. }
    rewrite (bool_decide_eq_true_2 _ Hin). cbn [fst snd]. split.
    + eexists. split; [reflexivity |].
      cbn [errors_Is]. rewrite errors_Is_refl. apply orb_true_r.
    + reflexivity.
Qed.

(** The calls of the reconciliation cancelled after its fetch. *)
Lemma cancelled_after_fetch_trace :
  trace cancelled_after_fetch =
    [ log_Info 3 "Reconciling Pod";
      client_Get (context_WithCancel 2) (req_NamespacedName trainer);
      log_Info 0 "Ensuring node pool for unschedulable pod";
      recorder_Event pending_pod EventTypeNormal "provisioning starting"
        "Ensuring Node Pool, triggered by Pod default/trainer-0.";
      provider_EnsureNodePoolForPod pending_pod;
      recorder_Event pending_pod EventTypeNormal "provisioning ensured"
        "Node Pool Ensured." ].
Proof. vm_compute. reflexivity. Qed.

(** C1 on the running pod of the spec's scenario 9. *)
Lemma C1_running_pod_ignored :
  returned (@reconcile spec_Package _ _ scenario_controller
              context_Background trainer (cluster_with running_pod))
    = (Result_zero, None) /\
  provider_calls (trace (@reconcile spec_Package _ _ scenario_controller
              context_Background trainer (cluster_with running_pod))) = [] /\
  notifications (trace (@reconcile spec_Package _ _ scenario_controller
              context_Background trainer (cluster_with running_pod))) = [].
Proof.
  refine (proj2 (@C1_provider_called_only_when_eligible spec_Package _ _
                   scenario_controller context_Background trainer
                   (cluster_with running_pod) running_pod _) _).
  - vm_compute. reflexivity.
  - left. vm_compute. reflexivity.
Defined.

(** C2 on the eligible pod once its node pool exists. *)
Lemma C2_second_request_suppressed :
  warnings (trace (@reconcile spec_Package _ _ scenario_controller
              context_Background trainer (cluster_provisioned pending_pod))) = [] /\
  returned (@reconcile spec_Package _ _ scenario_controller
              context_Background trainer (cluster_provisioned pending_pod))
    = (Result_zero, None).
Proof.
  apply (@C2_duplicate_request_is_success spec_Package _ _
           scenario_controller context_Background trainer
           (cluster_provisioned pending_pod) pending_pod
           (wrapError "node pool already requested: duplicate request"
              (errorString 3 "duplicate request")));
    vm_compute; reflexivity.
Defined.

(** C3 on the eligible pod: reconciled twice, one node pool. *)
Lemma C3_trainer_reconciled_twice :
  pools_created (cloud (world (snd
     (@reconcile_twice spec_Package _ _ scenario_controller
        context_Background context_Background trainer
        (cluster_with pending_pod)))))
    <= S (pools_created (cloud (cluster_with pending_pod))) /\
  returned (snd
     (@reconcile_twice spec_Package _ _ scenario_controller
        context_Background context_Background trainer
        (cluster_with pending_pod))) = (Result_zero, None).
Proof.
  apply (@C3_second_reconcile_is_suppressed spec_Package _ _ pools_created
           scenario_controller context_Background context_Background trainer
           (cluster_with pending_pod) (inl pending_pod)).
  - apply (@registry_provider_faithful spec_Package).
  - vm_compute. reflexivity.
  - vm_compute. reflexivity.
  - intros err Heq. discriminate Heq.
Defined.

(** C4 on the eligible pod against the provider out of quota. *)
Lemma C4_quota_exceeded :
  warnings (trace (@reconcile spec_Package _ _ (controller exhausted_provider)
              context_Background trainer (cluster_with pending_pod))) =
    [recorder_Event pending_pod EventTypeWarning "provisioning failed"
       "Failed to ensure existance of Node Pool: quota exceeded"] /\
  snd (returned (@reconcile spec_Package _ _ (controller exhausted_provider)
              context_Background trainer (cluster_with pending_pod)))
    = Some (errorString 4 "quota exceeded").
Proof.
  apply (@C4_provider_failure_is_reported spec_Package _ _
           (controller exhausted_provider) context_Background trainer
           (cluster_with pending_pod) pending_pod
           (errorString 4 "quota exceeded"));
    vm_compute; reflexivity.
Defined.

(** C5 on a cluster whose store cannot be reached. *)
Lemma C5_store_unreachable :
  provider_calls (trace (@reconcile spec_Package _ _ cut_off_controller
              context_Background trainer cut_off_cluster)) = [] /\
  notifications (trace (@reconcile spec_Package _ _ cut_off_controller
              context_Background trainer cut_off_cluster)) = [] /\
  returned (@reconcile spec_Package _ _ cut_off_controller
              context_Background trainer cut_off_cluster) =
    (Result_zero,
     Some (wrapError "getting pod: etcd unavailable"
             (StatusError "InternalError" "etcd unavailable"))).
Proof.
  apply (@C5_fetch_failure spec_Package _ _ cut_off_controller
           context_Background trainer cut_off_cluster
           (StatusError "InternalError" "etcd unavailable")).
  vm_compute. reflexivity.
Defined.

(** C6 on the eligible pod of the spec's scenario 8. *)
Lemma C6_trainer_ensured :
  last (trace (@reconcile spec_Package _ _ scenario_controller
              context_Background trainer (cluster_with pending_pod))) =
    Some (recorder_Event pending_pod EventTypeNormal "provisioning ensured"
            "Node Pool Ensured.") /\
  returned (@reconcile spec_Package _ _ scenario_controller
              context_Background trainer (cluster_with pending_pod))
    = (Result_zero, None).
Proof.
  apply (@C6_success_is_notified spec_Package _ _ scenario_controller
           context_Background trainer (cluster_with pending_pod) pending_pod);
    vm_compute; reflexivity.
Defined.

(** C7 on the eligible pod of the spec's scenario 8. *)
Lemma C7_trainer_starting_first :
  exists before between after,
    trace (@reconcile spec_Package _ _ scenario_controller
             context_Background trainer (cluster_with pending_pod)) =
      before
      ++ [recorder_Event pending_pod EventTypeNormal "provisioning starting"
            "Ensuring Node Pool, triggered by Pod default/trainer-0."]
      ++ between ++ [provider_EnsureNodePoolForPod pending_pod] ++ after /\
    provider_calls before = [] /\
    provider_calls between = [] /\
    provider_calls after = [].
Proof.
  apply (@C7_starting_before_provider spec_Package _ _ scenario_controller
           context_Background trainer (cluster_with pending_pod) pending_pod);
    vm_compute; reflexivity.
Defined.

(** C8 as amended, on a context cancelled before the reconciliation
    starts. *)
Lemma C8_cancelled_before_fetch :
  respects_cancellation (context_WithCancel 0)
    (@reconcile spec_Package _ _ scenario_controller
       (context_WithCancel 0) trainer (cluster_with pending_pod)) /\
  (forall c,
      In c (trace (@reconcile spec_Package _ _ scenario_controller
                     (context_WithCancel 0) trainer (cluster_with pending_pod))) ->
      is_side_effect c = false) /\
  exists err,
    snd (returned (@reconcile spec_Package _ _ scenario_controller
                     (context_WithCancel 0) trainer (cluster_with pending_pod)))
      = Some err /\
    errors_Is err context_Canceled = true.
Proof.
  apply (@C8_cancellation_reported_by_fetch spec_Package _ _
           scenario_controller (context_WithCancel 0) trainer
           (cluster_with pending_pod) 0 context_Canceled).
  - reflexivity.
  - cbn. lia.
  - reflexivity.
  - reflexivity.
Defined.

(** C8 as stated fails: the context of this reconciliation is cancelled at
    instant 2, before the provider is called at instant 4; the calls of
    instants 3, 4 and 5 are a notification, the request to the provider
    and a notification, and what is returned is success. *)
Lemma C8_cancellation_after_fetch_unobserved :
  fires_before_commit (context_WithCancel 2) 2 (trace cancelled_after_fetch) /\
  (is_side_effect <$> drop 2 (trace cancelled_after_fetch))
    = [false; true; true; true] /\
  returned cancelled_after_fetch = (Result_zero, None) /\
  ~ respects_cancellation (context_WithCancel 2) cancelled_after_fetch.
Proof.
  assert (Hfires : fires_before_commit (context_WithCancel 2) 2
                     (trace cancelled_after_fetch)).
  { split; [eexists; reflexivity |].
    rewrite cancelled_after_fetch_trace.
    intros [|[|i]] c Hi Hp; [| | lia];
      cbn in Hi; injection Hi as <-; discriminate Hp. }
  split; [exact Hfires |].
  split; [vm_compute; reflexivity |].
  split; [vm_compute; reflexivity |].
  intros Hrespects. destruct (Hrespects 2 Hfires) as [_ Herr].
  apply Herr. vm_compute. reflexivity.
Qed.

(** ** Further properties of [Reconcile] *)

Section Further.

Context `{Package} {Store Cloud : Type}.
Implicit Types (r : CreationReconciler Store Cloud) (w : World Store Cloud).

(** X1: reconcile returns a non-nil error in two cases only: the fetch
    failed with an error that is not a not-found, or the pod passed the
    checks and the provider failed with an error that is not the
    duplicate-request error. *)
Theorem X1_error_returned_iff r ctx req w :
  snd (returned (reconcile r ctx req w)) <> None <->
  (exists e, fetch r ctx req w = inr e /\ IsNotFound e = false) \/
  (exists pod e, fetch r ctx req w = inl pod /\ eligible r pod = true /\
                 ensure r pod w = Some e /\
                 errors_Is e ErrDuplicateRequest = false).
Proof.
  by_path r ctx req w; cbn [returned snd]; split.
  all: try (intros Hne; exfalso; apply Hne; reflexivity).
  all: try (intros _; discriminate).
  all: try (intros [(e & He & Hn) | (p & e & Hp & Hel & Hen & Hd)];
            congruence).
  - intros _. right. eauto 10.
  - intros _. left. eauto.
Qed.

(** X2: reconcile emits at most one warning, and it emits one exactly
    when it returns a non-nil error after having called the provider. *)
Theorem X2_warning_iff_error_after_provider r ctx req w :
  length (warnings (trace (reconcile r ctx req w))) <= 1 /\
  (warnings (trace (reconcile r ctx req w)) <> [] <->
   snd (returned (reconcile r ctx req w)) <> None /\
   provider_calls (trace (reconcile r ctx req w)) <> []).
Proof.
  by_path r ctx req w; cbn; (split; [lia |]); split.
  all: try (intros Hne; exfalso; apply Hne; reflexivity).
  all: try (intros [Hne Hp]; exfalso; (apply Hne; reflexivity)
                                      || (apply Hp; reflexivity)).
  all: try (intros _; split; discriminate).
  all: try (intros _; discriminate).
Qed.

(** X3: reconcile calls the provider at most once and emits at most two
    notifications, and it emits a notification exactly when it calls the
    provider. *)
Theorem X3_notified_iff_provider_called r ctx req w :
  length (provider_calls (trace (reconcile r ctx req w))) <= 1 /\
  length (notifications (trace (reconcile r ctx req w))) <= 2 /\
  (notifications (trace (reconcile r ctx req w)) <> [] <->
   provider_calls (trace (reconcile r ctx req w)) <> []).
Proof.
  by_path r ctx req w; cbn; (split; [lia |]); (split; [lia |]); split.
  all: try (intros Hne; exfalso; apply Hne; reflexivity).
  all: try (intros _; discriminate).
Qed.

(** X4: every call of reconcile that carries a pod (a notification, the
    request to the provider) carries the pod that the fetch answered. *)
Theorem X4_calls_carry_fetched_pod r ctx req w c p :
  In c (trace (reconcile r ctx req w)) ->
  call_pod c = Some p ->
  fetch r ctx req w = inl p.
Proof.
  by_path r ctx req w; cbn [trace opening starting app In];
    intros Hin Hp;
    repeat (destruct Hin as [<- | Hin]; [cbn in Hp; congruence |]);
    destruct Hin.
Qed.


(** X6: the error reconcile returns for a failed fetch reads
    "getting pod: " followed by the text of the fetch's error, and is
    every error that the fetch's error is. *)
Theorem X6_fetch_error_chain_kept r ctx req w e target :
  fetch r ctx req w = inr e ->
  IsNotFound e = false ->
  errors_Is e target = true ->
  exists err,
    snd (returned (reconcile r ctx req w)) = Some err /\
    Error err = "getting pod: " +:+ Error e /\
    errors_Is err target = true.
Proof.
  intros Hf Hn Hi.
  rewrite (reconcile_fetch_failed r ctx req w e Hf Hn). cbn [returned snd].
  eexists. split; [reflexivity |]. split; [reflexivity |].
  apply errors_Is_wrap, Hi.
Qed.

(** X7: the notification that reads "Node Pool Ensured." is emitted only
    for the fetched pod, when it passed the checks and the provider
    answered without an error. *)
Theorem X7_ensured_only_on_success r ctx req w p eventtype reason :
  In (recorder_Event p eventtype reason "Node Pool Ensured.")
     (trace (reconcile r ctx req w)) ->
  fetch r ctx req w = inl p /\ eligible r p = true /\ ensure r p w = None.
Proof.
  by_path r ctx req w; cbn [trace opening starting app In]; intros Hin;
    repeat (destruct Hin as [Heq | Hin]; [try discriminate Heq |]);
    try destruct Hin.
  all: try (cbn in Heq; discriminate Heq).
  injection Heq as <- _ _. auto.
Qed.

(** Under a context that never fires, the fetch is answered as a read
    without signal. *)
Lemma fetch_never_fired r ctx req w :
  fires ctx = None ->
  fetch r ctx req w = Get (Client r) None (req_NamespacedName req) (store w).
Proof.
  intros Hnever. unfold fetch, ctx_Err. rewrite Hnever. reflexivity.
Qed.

(** The store after a reconciliation. *)
Lemma reconcile_store r ctx req w :
  store (world (reconcile r ctx req w)) = store w.
Proof.
  by_path r ctx req w; reflexivity.
Qed.

(** Once the provider has been asked for the pod, a reconciliation that
    fetches the same answer is suppressed: it succeeds, creates nothing,
    and leaves the collaborators in a state of which the same holds. *)
Lemma redelivery_step (provisioned : Cloud -> nat) r ctx req w got :
  faithfully_idempotent (Provider r) provisioned ->
  fetch r ctx req w = got ->
  (forall err, got = inr err -> IsNotFound err = true) ->
  (forall pod, got = inl pod -> eligible r pod = true ->
     exists c, cloud w = snd (EnsureNodePoolForPod (Provider r) pod c)) ->
  returned (reconcile r ctx req w) = (Result_zero, None) /\
  provisioned (cloud (world (reconcile r ctx req w))) = provisioned (cloud w) /\
  (forall pod, got = inl pod -> eligible r pod = true ->
     exists c, cloud (world (reconcile r ctx req w))
               = snd (EnsureNodePoolForPod (Provider r) pod c)).
Proof.
  intros [_ Hdup] Hf Hnf Hasked.
  pose proof (reconcile_cloud r ctx req w) as Hc. rewrite Hf in Hc.
  destruct got as [pod | err].
  - destruct (eligible r pod) eqn:He.
    + destruct (Hasked pod eq_refl He) as [c0 Hc0].
      destruct (Hdup pod pod c0 eq_refl) as [(e & He1 & He2) Hsame].
      cbn in He1, Hsame. rewrite <- Hc0 in He1, Hsame.
      rewrite (reconcile_duplicate r ctx req w pod e Hf He He1 He2).
      cbn. repeat split; [exact Hsame |].
      intros pod' [= <-] _. eauto.
    + rewrite (reconcile_ignored r ctx req w pod Hf He). cbn.
      repeat split. intros pod' [= <-]. congruence.
  - rewrite (reconcile_not_found r ctx req w err Hf (Hnf err eq_refl)). cbn.
    repeat split. intros pod' [=].
Qed.

(** The same, for every redelivery that follows. *)
Lemma redelivery_suppressed (provisioned : Cloud -> nat) r req got ctxs :
  faithfully_idempotent (Provider r) provisioned ->
  (forall err, got = inr err -> IsNotFound err = true) ->
  Forall (fun ctx => fires ctx = None) ctxs ->
  forall w,
    Get (Client r) None (req_NamespacedName req) (store w) = got ->
    (forall pod, got = inl pod -> eligible r pod = true ->
       exists c, cloud w = snd (EnsureNodePoolForPod (Provider r) pod c)) ->
    Forall (fun o => returned o = (Result_zero, None) /\
                     provisioned (cloud (world o)) = provisioned (cloud w))
      (reconcile_each r ctxs req w).
Proof.
  intros Hfaith Hnf Hnever.
  induction Hnever as [| ctx ctxs Hctx _ IH]; intros w Hget Hasked;
    cbn [reconcile_each].
  - constructor.
  - assert (Hf : fetch r ctx req w = got).
    { rewrite (fetch_never_fired r ctx req w Hctx). exact Hget. }
    destruct (redelivery_step provisioned r ctx req w got Hfaith Hf Hnf Hasked)
      as (Hret & Hsame & Hasked').
    constructor; [split; assumption |].
    rewrite <- Hsame. apply IH; [| exact Hasked'].
    rewrite reconcile_store. exact Hget.
Qed.

(** X8: a request delivered any number of times, under contexts that are
    never cancelled, to a store that keeps answering the same (the pod, or
    the not-found signal) and a provider that is faithfully idempotent on
    pod identity: at most one node pool is added over all the
    reconciliations, and every reconciliation after the first returns
    success with the zero result. *)
Theorem X8_redelivery_provisions_once
    (provisioned : Cloud -> nat) r ctxs req w got :
  faithfully_idempotent (Provider r) provisioned ->
  Forall (fun ctx => fires ctx = None) ctxs ->
  Get (Client r) None (req_NamespacedName req) (store w) = got ->
  (forall err, got = inr err -> IsNotFound err = true) ->
  Forall (fun o => provisioned (cloud (world o)) <= S (provisioned (cloud w)))
    (reconcile_each r ctxs req w) /\
  Forall (fun o => returned o = (Result_zero, None))
    (tail (reconcile_each r ctxs req w)).
Proof.
  intros Hfaith Hnever Hget Hnf.
  destruct Hnever as [| ctx ctxs Hctx Hnever]; cbn [reconcile_each tail].
  - split; constructor.
  - assert (Hf : fetch r ctx req w = got).
    { rewrite (fetch_never_fired r ctx req w Hctx). exact Hget. }
    pose proof (reconcile_cloud r ctx req w) as Hc. rewrite Hf in Hc.
    pose proof (reconcile_store r ctx req w) as Hs.
    remember (world (reconcile r ctx req w)) as w1 eqn:Hw1.
    assert (Hfirst : provisioned (cloud w1) <= S (provisioned (cloud w))).
    { rewrite Hc. destruct got as [pod |]; [| lia].
      destruct (eligible r pod); [| lia]. apply Hfaith. }
    assert (Hrest :
              Forall (fun o => returned o = (Result_zero, None) /\
                               provisioned (cloud (world o))
                               = provisioned (cloud w1))
                (reconcile_each r ctxs req w1)).
    { apply (redelivery_suppressed provisioned r req got ctxs Hfaith Hnf Hnever).
      - rewrite Hs. exact Hget.
      - intros pod -> He. rewrite Hc, He. eauto. }
    split.
    + constructor; [rewrite <- Hw1; exact Hfirst |].
      eapply Forall_impl; [exact Hrest |].
      cbn. intros o [_ Ho]. rewrite Ho. exact Hfirst.
    + eapply Forall_impl; [exact Hrest |]. cbn. intros o [Ho _]. exact Ho.
Qed.

End Further.

(** ** The further properties on the scenarios *)

(** X4 on the request to the provider for the eligible pod. *)
Lemma X4_trainer_request_carries_fetched_pod :
  fetch scenario_controller context_Background trainer
    (cluster_with pending_pod) = inl pending_pod.
Proof.
  apply (@X4_calls_carry_fetched_pod spec_Package _ _ scenario_controller
           context_Background trainer (cluster_with pending_pod)
           (provider_EnsureNodePoolForPod pending_pod) pending_pod).
  - vm_compute. do 4 right. left. reflexivity.
  - reflexivity.
Defined.


(** X6 on a cluster whose store cannot be reached. *)
Lemma X6_store_unreachable_chain :
  exists err,
    snd (returned (@reconcile spec_Package _ _ cut_off_controller
                     context_Background trainer cut_off_cluster)) = Some err /\
    Error err = "getting pod: etcd unavailable" /\
    errors_Is err (StatusError "InternalError" "etcd unavailable") = true.
Proof.
  apply (@X6_fetch_error_chain_kept spec_Package _ _ cut_off_controller
           context_Background trainer cut_off_cluster
           (StatusError "InternalError" "etcd unavailable")
           (StatusError "InternalError" "etcd unavailable"));
    vm_compute; reflexivity.
Defined.

(** X7 on the eligible pod of the spec's scenario 8. *)
Lemma X7_trainer_ensured_after_success :
  fetch scenario_controller context_Background trainer
    (cluster_with pending_pod) = inl pending_pod /\
  @eligible spec_Package _ _ scenario_controller pending_pod = true /\
  ensure scenario_controller pending_pod (cluster_with pending_pod) = None.
Proof.
  apply (@X7_ensured_only_on_success spec_Package _ _ scenario_controller
           context_Background trainer (cluster_with pending_pod) pending_pod
           EventTypeNormal "provisioning ensured").
  vm_compute. do 5 right. left. reflexivity.
Defined.

(** X8 on the eligible pod, delivered three times. *)
Lemma X8_trainer_delivered_three_times :
  Forall (fun o => pools_created (cloud (world o))
                   <= S (pools_created (cloud (cluster_with pending_pod))))
    (@reconcile_each spec_Package _ _ scenario_controller
       [context_Background; context_Background; context_Background]
       trainer (cluster_with pending_pod)) /\
  Forall (fun o => returned o = (Result_zero, None))
    (tail (@reconcile_each spec_Package _ _ scenario_controller
             [context_Background; context_Background; context_Background]
             trainer (cluster_with pending_pod))).
Proof.
  apply (@X8_redelivery_provisions_once spec_Package _ _ pools_created
           scenario_controller
           [context_Background; context_Background; context_Background]
           trainer (cluster_with pending_pod) (inl pending_pod)).
  - apply (@registry_provider_faithful spec_Package).
  - repeat constructor.
  - vm_compute. reflexivity.
  - intros err Heq. discriminate Heq.
Defined.
